(** * Key-value store behind a JSON-RPC dispatcher (package [server])

    A shallow embedding of [src/sever/server.go]: the [Storage] interface,
    its [InMemoryStorage] implementation and [JSONRPCServer.HandleRequest].

    Modelling choices.
    - The Go map [data map[string]string] is a [gmap string string].
    - Methods with a pointer receiver are written in state-passing style:
      they take the store and return the store they leave behind.
    - A Go [error] is [option string]: [None] is [nil], [Some msg] an error
      whose [Error()] text is [msg].
    - The read/write mutex makes every method atomic; a method is therefore
      modelled by its sequential body.
    - A failed type assertion is a run-time panic; the handler is written in
      a small state-and-panic monad. *)

From Stdlib Require Import Floats.PrimFloat.
From stdpp Require Import base option strings gmap fin_maps list.

Local Open Scope string_scope.

(** ** Values of type [interface{}] produced by [encoding/json] *)

(** [encoding/json] decodes into [interface{}] as: [nil] for null, [bool],
    [float64] for numbers, [string], [[]interface{}] and
    [map[string]interface{}]. A [float64] is a binary64 float. *)
#[local] Unset Elimination Schemes.
Inductive value : Type :=
| JNull
| JBool (b : bool)
| JNumber (f : float)
| JString (s : string)
| JArray (xs : list value)
| JObject (m : gmap string value).
#[local] Set Elimination Schemes.

(** A Go [error]: [nil] or a message. *)
Definition error : Type := option string.

(** [fmt.Errorf(msg)] without verbs. *)
Definition Errorf (msg : string) : error := Some msg.

(** ** The [Storage] interface *)

Class Storage (S : Type) : Type := {
  Get : S → string → S * (string * error);
  Post : S → string → string → S * error;
  Put : S → string → string → S * error;
  Delete : S → string → S * error
}.

(** ** [InMemoryStorage] *)

Module InMemoryStorage.

(** The [data] field; the mutex carries no data. *)
Abbreviation t := (gmap string string).

Definition Get (s : t) (key : string) : t * (string * error) :=
  match s !! key with
  | None => (s, ("", Errorf "key not found"))
  | Some value => (s, (value, None))
  end.

Definition Post (s : t) (key value : string) : t * error :=
  (<[key := value]> s, None).

Definition Put (s : t) (key value : string) : t * error :=
  (<[key := value]> s, None).

Definition Delete (s : t) (key : string) : t * error :=
  (delete key s, None).

End InMemoryStorage.

Definition NewInMemoryStorage : gmap string string := ∅.

#[export] Instance InMemoryStorage_Storage : Storage (gmap string string) := {
  Get := InMemoryStorage.Get;
  Post := InMemoryStorage.Post;
  Put := InMemoryStorage.Put;
  Delete := InMemoryStorage.Delete
}.

(** ** The envelopes of [github.com/ybbus/jsonrpc/v2]

    The library is imported, not part of the repository; its three structs
    are transcribed field by field. A nil [interface{}] is [JNull], a nil
    [*RPCError] is [None]. With the tag [omitempty] a nil [Result] or [Error]
    is left out of the encoded object. *)

Module RPCRequest.
Record t : Type := Build {
  Method : string;
  Params : value;
  ID : Z;
  JSONRPC : string
}.
End RPCRequest.

Module RPCError.
Record t : Type := Build {
  Code : Z;
  Message : string;
  Data : value
}.
End RPCError.

Module RPCResponse.
Record t : Type := Build {
  JSONRPC : string;
  Result : value;
  Error : option RPCError.t;
  ID : Z
}.
End RPCResponse.

(** ** Panics and the handler monad *)

(** A computation either finishes with a value or panics. *)
Inductive exec (A : Type) : Type :=
| Done (a : A)
| Panicked.
Arguments Done {A} a.
Arguments Panicked {A}.

(** A handler step runs on the store, leaves a store behind, and may panic. *)
Definition handler (S A : Type) : Type := S → S * exec A.

Definition ret {S A : Type} (a : A) : handler S A :=
  λ s, (s, Done a).

Definition bind {S A B : Type} (c : handler S A) (k : A → handler S B) : handler S B :=
  λ s, match c s with
       | (s', Done a) => k a s'
       | (s', Panicked) => (s', Panicked)
       end.

(** A pure step that may panic. *)
Definition must {S A : Type} (e : exec A) : handler S A :=
  λ s, (s, e).

(** A call of a method of the storage. *)
Definition call {S A : Type} (f : S → S * A) : handler S A :=
  λ s, let '(s', a) := f s in (s', Done a).

Notation "x <~ c ;; k" := (bind c (λ x, k))
  (at level 100, c at next level, right associativity).

(** [v.(map[string]interface{})]: panics unless [v] holds a map. *)
Definition assert_map (v : value) : exec (gmap string value) :=
  match v with
  | JObject m => Done m
  | _ => Panicked
  end.

(** [v.(string)]: panics unless [v] holds a string. *)
Definition assert_string (v : value) : exec string :=
  match v with
  | JString s => Done s
  | _ => Panicked
  end.

(** [m[k]] on a Go map: the zero value, a nil interface, when [k] is absent. *)
Definition index (m : gmap string value) (k : string) : value :=
  default JNull (m !! k).

(** ** [JSONRPCServer.HandleRequest] *)

(** What the handler writes to the [http.ResponseWriter]. *)
Inductive written : Type :=
| HTTPError (msg : string) (code : Z)
| Encoded (res : RPCResponse.t).

(** [res] after [res.Error = &jsonrpc.RPCError{Code: code, Message: msg}]. *)
Definition with_Error (res : RPCResponse.t) (code : Z) (msg : string) : RPCResponse.t :=
  RPCResponse.Build (RPCResponse.JSONRPC res) (RPCResponse.Result res)
    (Some (RPCError.Build code msg JNull)) (RPCResponse.ID res).

(** [res] after [res.Result = r] for a Go string [r]. *)
Definition with_Result (res : RPCResponse.t) (r : string) : RPCResponse.t :=
  RPCResponse.Build (RPCResponse.JSONRPC res) (JString r)
    (RPCResponse.Error res) (RPCResponse.ID res).

(** The body of the [switch req.Method]. *)
Definition dispatch {S : Type} `{Storage S}
    (req : RPCRequest.t) (res : RPCResponse.t) : handler S RPCResponse.t :=
  if decide (RPCRequest.Method req = "get") then
    params <~ must (assert_map (RPCRequest.Params req));;
    key <~ must (assert_string (index params "key"));;
    r <~ call (λ s, Get s key);;
    let '(value, err) := r in
    match err with
    | Some msg => ret (with_Error res 1 msg)
    | None => ret (with_Result res value)
    end
  else if decide (RPCRequest.Method req = "post") then
    params <~ must (assert_map (RPCRequest.Params req));;
    key <~ must (assert_string (index params "key"));;
    value <~ must (assert_string (index params "value"));;
    err <~ call (λ s, Post s key value);;
    match err with
    | Some msg => ret (with_Error res 1 msg)
    | None => ret (with_Result res "success")
    end
  else if decide (RPCRequest.Method req = "put") then
    params <~ must (assert_map (RPCRequest.Params req));;
    key <~ must (assert_string (index params "key"));;
    value <~ must (assert_string (index params "value"));;
    err <~ call (λ s, Put s key value);;
    match err with
    | Some msg => ret (with_Error res 1 msg)
    | None => ret (with_Result res "success")
    end
  else if decide (RPCRequest.Method req = "delete") then
    params <~ must (assert_map (RPCRequest.Params req));;
    key <~ must (assert_string (index params "key"));;
    err <~ call (λ s, Delete s key);;
    match err with
    | Some msg => ret (with_Error res 1 msg)
    | None => ret (with_Result res "success")
    end
  else
    ret (with_Error res (-32601) "Method not found").

(** [body] is the outcome of [json.NewDecoder(r.Body).Decode(&req)]: [None]
    when it returns an error, [Some req] otherwise. Writing the encoded
    response is taken to succeed. *)
Definition HandleRequest {S : Type} `{Storage S}
    (body : option RPCRequest.t) : handler S written :=
  match body with
  | None => ret (HTTPError "Invalid request" 400)
  | Some req =>
    let res := RPCResponse.Build "2.0" JNull None (RPCRequest.ID req) in
    res <~ dispatch req res;;
    ret (Encoded res)
  end.

(** A decoded request [{"jsonrpc":"2.0","id":id,"method":method,"params":params}]. *)
Definition rpc (method : string) (params : value) (id : Z) : option RPCRequest.t :=
  Some (RPCRequest.Build method params id "2.0").

(** The params object [{"key": key}]. *)
Definition params_key (key : string) : value :=
  JObject {["key" := JString key]}.

(** The params object [{"key": key, "value": val}]. *)
Definition params_key_value (key val : string) : value :=
  JObject {["key" := JString key; "value" := JString val]}.


(** ** Histories of storage operations *)

(** One call on the storage, as the dispatcher issues it. *)
Inductive op : Type :=
| OpGet (key : string)
| OpPost (key value : string)
| OpPut (key value : string)
| OpDelete (key : string).

(** The store left behind by one call on an [InMemoryStorage]. *)
Definition step (s : gmap string string) (o : op) : gmap string string :=
  match o with
  | OpGet key => (Get s key).1
  | OpPost key value => (Post s key value).1
  | OpPut key value => (Put s key value).1
  | OpDelete key => (Delete s key).1
  end.

(** The store left behind by a sequence of calls, oldest first. *)
Definition run (ops : list op) (s : gmap string string) : gmap string string :=
  foldl step s ops.

(** [o] writes key [k]: it is a [Post] or a [Put] on [k]. *)
Definition writes (k : string) (o : op) : bool :=
  match o with
  | OpPost key _ | OpPut key _ => bool_decide (key = k)
  | OpGet _ | OpDelete _ => false
  end.

(** No call of [ops] writes [k]. *)
Definition never_written (k : string) (ops : list op) : bool :=
  forallb (λ o, negb (writes k o)) ops.

(** The last call of [ops] that writes or deletes [k] is a [Delete]. *)
Definition last_deleted (k : string) (ops : list op) : Prop :=
  ∃ pre post, ops = (pre ++ OpDelete k :: post)%list ∧ never_written k post = true.

(** Exactly one of [Result] and [Error] is set. *)
Definition exactly_one (res : RPCResponse.t) : Prop :=
  (RPCResponse.Result res ≠ JNull ∧ RPCResponse.Error res = None) ∨
  (RPCResponse.Result res = JNull ∧ RPCResponse.Error res ≠ None).

(** ** Requests in sequence *)

(** The handler run on one decoded body after the other, oldest first: the
    store each run leaves is the store of the next, and a run that panics
    ends that request only. Each run calls the storage at most once, so a
    sequence also stands for any interleaving of concurrent requests. *)
Fixpoint serve {S : Type} `{Storage S}
    (bodies : list (option RPCRequest.t)) (s : S) : S * list (exec written) :=
  match bodies with
  | [] => (s, [])
  | body :: bodies =>
    let '(s', out) := HandleRequest body s in
    let '(s'', outs) := serve bodies s' in
    (s'', out :: outs)
  end.

(** The key a call is about. *)
Definition key_of (o : op) : string :=
  match o with
  | OpGet key | OpPost key _ | OpPut key _ | OpDelete key => key
  end.

(** [o] may change what is stored under [k]: a [Post], [Put] or [Delete]
    on [k]. *)
Definition mutates (k : string) (o : op) : bool :=
  match o with
  | OpGet _ => false
  | OpPost key _ | OpPut key _ | OpDelete key => bool_decide (key = k)
  end.

(** No call of [ops] is a [Post], [Put] or [Delete] on [k]. *)
Definition never_mutated (k : string) (ops : list op) : bool :=
  forallb (λ o, negb (mutates k o)) ops.

(** The decoded request by which a client asks for the call [o]. *)
Definition request_of_op (id : Z) (o : op) : RPCRequest.t :=
  match o with
  | OpGet key => RPCRequest.Build "get" (params_key key) id "2.0"
  | OpPost key val => RPCRequest.Build "post" (params_key_value key val) id "2.0"
  | OpPut key val => RPCRequest.Build "put" (params_key_value key val) id "2.0"
  | OpDelete key => RPCRequest.Build "delete" (params_key key) id "2.0"
  end.

(** The string under "key" in the params of a decoded body, if any. *)
Definition request_key (body : option RPCRequest.t) : option string :=
  match body with
  | Some req =>
    match RPCRequest.Params req with
    | JObject m =>
      match m !! "key" with
      | Some (JString k) => Some k
      | _ => None
      end
    | _ => None
    end
  | None => None
  end.

(** The params of [req] are an object with a string under "key". *)
Definition has_key (req : RPCRequest.t) : Prop :=
  ∃ m k, RPCRequest.Params req = JObject m ∧ m !! "key" = Some (JString k).

(** The params of [req] are an object with strings under "key" and "value". *)
Definition has_key_value (req : RPCRequest.t) : Prop :=
  ∃ m k v, RPCRequest.Params req = JObject m ∧
           m !! "key" = Some (JString k) ∧ m !! "value" = Some (JString v).

(** The response to [request_of_op id o] on the store [s], read off the
    branches of the handler. *)
Definition response_of_op (id : Z) (s : gmap string string) (o : op) : RPCResponse.t :=
  match o with
  | OpGet key =>
    match s !! key with
    | Some val => RPCResponse.Build "2.0" (JString val) None id
    | None =>
      RPCResponse.Build "2.0" JNull (Some (RPCError.Build 1 "key not found" JNull)) id
    end
  | OpPost _ _ | OpPut _ _ | OpDelete _ =>
    RPCResponse.Build "2.0" (JString "success") None id
  end.

(** The responses to a sequence of identified calls, starting on [s]. *)
Fixpoint responses (calls : list (Z * op)) (s : gmap string string) : list RPCResponse.t :=
  match calls with
  | [] => []
  | (id, o) :: calls => response_of_op id s o :: responses calls (step s o)
  end.

(** * The REST front end (package [main], [src/client/client.go])

    The global [users] map is the state of the handlers; the mutex makes
    every handler atomic. What a handler takes from outside is an argument:
    the decoded body of the request, the identifier [uuid.New().String()]
    returns, what [client.Call] returns and what [json.Unmarshal] makes of a
    byte slice. *)

Module Client.

Record User : Type := BuildUser {
  ID : string;
  Name : string;
  Age : Z
}.

(** [user] after [user.ID = id]. *)
Definition with_ID (user : User) (id : string) : User :=
  BuildUser id (Name user) (Age user).

(** What the handlers read of an [*http.Request]: the method, [URL.Path],
    and the outcome of [json.NewDecoder(r.Body).Decode(&user)], the text of
    the error or the user it filled in. *)
Record Request : Type := BuildRequest {
  Method : string;
  Path : string;
  Body : string + User
}.

(** What a handler writes to the [http.ResponseWriter]: [http.Error], an
    encoded user, the encoded [users] map, the encoded [result] map, or
    plain text. *)
Inductive written : Type :=
| HTTPError (msg : string) (code : Z)
| EncodedUser (user : User)
| EncodedUsers (users : gmap string User)
| EncodedResult (result : gmap string value)
| Text (text : string).

(** The [Result] of the response of the JSON-RPC client, an [interface{}]:
    a byte slice, or a value as [encoding/json] decodes it. *)
Inductive any : Type :=
| Bytes (b : string)
| Decoded (v : value).

(** [v.([]byte)]: panics unless [v] holds a byte slice. *)
Definition assert_bytes (v : any) : exec string :=
  match v with
  | Bytes b => Done b
  | Decoded _ => Panicked
  end.

(** What [createUser] takes from outside. [Call method user] is the pair
    [client.Call(method, user)] returns: the text of the error, or the
    [Result] of the response. [Unmarshal b] is the outcome of
    [json.Unmarshal(b, &result)] for a [result] of type
    [map[string]interface{}]. *)
Record externals : Type := BuildExternals {
  uuid_New : string;
  Call : string → User → string + any;
  Unmarshal : string → string + gmap string value
}.

(** [s] without the leading [prefix], if it starts with it. *)
Fixpoint strip_prefix (prefix s : string) : option string :=
  match prefix with
  | EmptyString => Some s
  | String c prefix =>
    match s with
    | EmptyString => None
    | String c' s => if Ascii.eqb c c' then strip_prefix prefix s else None
    end
  end.

(** [strings.TrimPrefix(s, prefix)]: [s] without the leading [prefix]; [s]
    itself when it does not start with [prefix]. *)
Definition TrimPrefix (s prefix : string) : string :=
  default s (strip_prefix prefix s).

Definition createUser (ext : externals) (r : Request)
    : handler (gmap string User) written :=
  match Body r with
  | inl err => ret (HTTPError err 400)
  | inr user =>
    let user := with_ID user (uuid_New ext) in
    _ <~ (λ users, (<[ID user := user]> users, Done ()));;
    match Call ext "createUser" user with
    | inl err => ret (HTTPError err 500)
    | inr result =>
      b <~ must (assert_bytes result);;
      match Unmarshal ext b with
      | inl err => ret (HTTPError err 500)
      | inr result => ret (EncodedResult result)
      end
    end
  end.

Definition getAllUsers : handler (gmap string User) written :=
  λ users, (users, Done (EncodedUsers users)).

Definition getUser (id : string) : handler (gmap string User) written :=
  λ users,
    match users !! id with
    | None => (users, Done (HTTPError "User not found" 404))
    | Some user => (users, Done (EncodedUser user))
    end.

Definition updateUser (r : Request) (id : string)
    : handler (gmap string User) written :=
  match Body r with
  | inl err => ret (HTTPError err 400)
  | inr user =>
    let user := with_ID user id in
    _ <~ (λ users, (<[id := user]> users, Done ()));;
    ret (EncodedUser user)
  end.

Definition deleteUser (id : string) : handler (gmap string User) written :=
  λ users,
    match users !! id with
    | None => (users, Done (HTTPError "User not found" 404))
    | Some _ => (delete id users, Done (Text "User deleted"))
    end.

Definition usersHandler (ext : externals) (r : Request)
    : handler (gmap string User) written :=
  if decide (Method r = "POST") then createUser ext r
  else if decide (Method r = "GET") then getAllUsers
  else ret (HTTPError "Unsupported method" 405).

Definition userHandler (r : Request) : handler (gmap string User) written :=
  let id := TrimPrefix (Path r) "/users/" in
  if decide (Method r = "GET") then getUser id
  else if decide (Method r = "PUT") then updateUser r id
  else if decide (Method r = "DELETE") then deleteUser id
  else ret (HTTPError "Unsupported method" 405).

(** The body decoded. *)
Definition is_inr {A B : Type} (x : A + B) : Prop :=
  match x with
  | inl _ => False
  | inr _ => True
  end.

#[export] Instance is_inr_dec {A B : Type} (x : A + B) : Decision (is_inr x).
Proof. destruct x; cbn; apply _. Defined.

(** A request together with the handler it is routed to. *)
Inductive routed : Type :=
| ToUsers (ext : externals) (r : Request)
| ToUser (r : Request).

Definition handle (c : routed) : handler (gmap string User) written :=
  match c with
  | ToUsers ext r => usersHandler ext r
  | ToUser r => userHandler r
  end.

(** The [users] map after the handlers have run on the requests in turn,
    oldest first, starting on [users]; a run that panics ends that request
    only. *)
Definition served (cs : list routed) (users : gmap string User) : gmap string User :=
  foldl (λ users c, (handle c users).1) users cs.

(** The requests that can change [users]: a POST to the collection or a
    PUT to one user with a body that decodes, and a DELETE to one user. *)
Definition may_change (c : routed) : bool :=
  match c with
  | ToUsers _ r =>
    bool_decide (Method r = "POST") && bool_decide (is_inr (Body r))
  | ToUser r =>
    bool_decide (Method r = "PUT") && bool_decide (is_inr (Body r))
    || bool_decide (Method r = "DELETE")
  end.

(** Every user is stored under its own [ID]. *)
Definition keyed_by_ID (users : gmap string User) : Prop :=
  ∀ id user, users !! id = Some user → ID user = id.

End Client.

(** Unfolds one run of a handler of the front end. *)
Ltac unfold_client :=
  unfold Client.handle, Client.usersHandler, Client.userHandler,
    Client.createUser, Client.getAllUsers, Client.getUser, Client.updateUser,
    Client.deleteUser, Client.assert_bytes, bind, must, ret in *; cbn in *.

(** Unfolds one run of the handler down to the storage call. *)
Ltac unfold_handler :=
  unfold HandleRequest, dispatch, bind, must, call, ret,
    assert_map, assert_string, index in *; cbn in *.

(** * Properties *)

(** ** The scenario of the specification, run on the model *)

Example scenario_post :
  HandleRequest (rpc "post" (params_key_value "a" "1") 1) NewInMemoryStorage
  = ({["a" := "1"]}, Done (Encoded (RPCResponse.Build "2.0" (JString "success") None 1))).
Proof. vm_compute. reflexivity. Qed.

Example scenario_get :
  HandleRequest (rpc "get" (params_key "a") 2) {["a" := "1"]}
  = ({["a" := "1"]}, Done (Encoded (RPCResponse.Build "2.0" (JString "1") None 2))).
Proof. vm_compute. reflexivity. Qed.

Example scenario_delete :
  HandleRequest (rpc "delete" (params_key "a") 3) {["a" := "1"]}
  = (∅, Done (Encoded (RPCResponse.Build "2.0" (JString "success") None 3))).
Proof. vm_compute. reflexivity. Qed.

Example scenario_get_deleted :
  HandleRequest (rpc "get" (params_key "a") 4) (∅ : gmap string string)
  = (∅, Done (Encoded (RPCResponse.Build "2.0" JNull
            (Some (RPCError.Build 1 "key not found" JNull)) 4))).
Proof. vm_compute. reflexivity. Qed.

Example scenario_delete_absent :
  HandleRequest (rpc "delete" (params_key "a") 5) (∅ : gmap string string)
  = (∅, Done (Encoded (RPCResponse.Build "2.0" (JString "success") None 5))).
Proof. vm_compute. reflexivity. Qed.

Example scenario_get_no_key :
  HandleRequest (rpc "get" (JObject ∅) 6) (∅ : gmap string string) = (∅, Panicked).
Proof. vm_compute. reflexivity. Qed.

Example scenario_bad_body :
  HandleRequest None (∅ : gmap string string) = (∅, Done (HTTPError "Invalid request" 400)).
Proof. vm_compute. reflexivity. Qed.

(** ** The storage engine *)

Section storage.

Implicit Types (s : gmap string string) (k key v : string).

Lemma Get_absent s k :
  s !! k = None → Get s k = (s, ("", Some "key not found")).
Proof. intros Hk. cbn. unfold InMemoryStorage.Get. by rewrite Hk. Qed.

Lemma Get_present s k v :
  s !! k = Some v → Get s k = (s, (v, None)).
Proof. intros Hk. cbn. unfold InMemoryStorage.Get. by rewrite Hk. Qed.

Lemma Get_store s k : (Get s k).1 = s.
Proof. cbn. unfold InMemoryStorage.Get. by destruct (s !! k). Qed.

Lemma step_lookup_other s k o :
  writes k o = false → s !! k = None → step s o !! k = None.
Proof.
  destruct o as [key|key v|key v|key]; cbn; intros Hw Hk.
  - by rewrite Get_store.
  - apply bool_decide_eq_false in Hw. by rewrite lookup_insert_ne.
  - apply bool_decide_eq_false in Hw. by rewrite lookup_insert_ne.
  - destruct (decide (key = k)) as [->|Hne].
    + apply lookup_delete_eq.
    + by rewrite lookup_delete_ne.
Qed.

Lemma run_app (pre post : list op) s :
  run (pre ++ post) s = run post (run pre s).
Proof. apply foldl_app. Qed.

Lemma run_never_written (ops : list op) : ∀ s k,
  never_written k ops = true → s !! k = None → run ops s !! k = None.
Proof.
  induction ops as [|o ops IH]; intros s k Hnw Hk; [done|].
  cbn in Hnw. apply andb_true_iff in Hnw as [Ho Hops].
  apply negb_true_iff in Ho.
  cbn. apply IH; [done|]. by apply step_lookup_other.
Qed.

Lemma run_last_deleted (ops : list op) s k :
  last_deleted k ops → run ops s !! k = None.
Proof.
  intros (pre & post & -> & Hpost).
  rewrite run_app. cbn. apply run_never_written; [done|].
  apply lookup_delete_eq.
Qed.

End storage.

(** C2: on every store, [Post(k, v)] succeeds and a [Get(k)] on the store it
    leaves returns [v] with no error. *)
Theorem Post_then_Get (s : gmap string string) (k v : string) :
  (Post s k v).2 = None ∧
  (Get (Post s k v).1 k).2 = (v, None).
Proof.
  split; [done|]. cbn.
  erewrite Get_present; [done|]. apply lookup_insert_eq.
Qed.

(** C4: last write wins. After [Put(k, v1)] and [Put(k, v2)], [Get(k)]
    returns [v2] with no error, and the store is the one a single
    [Put(k, v2)] leaves. *)
Theorem Put_Put_then_Get (s : gmap string string) (k v1 v2 : string) :
  (Get (Put (Put s k v1).1 k v2).1 k).2 = (v2, None) ∧
  (Put (Put s k v1).1 k v2).1 = (Put s k v2).1.
Proof.
  split; cbn.
  - erewrite Get_present; [done|]. apply lookup_insert_eq.
  - apply insert_insert_eq.
Qed.

(** C8: [Post] and [Put] agree on every store, key and value: same store
    left behind, same (nil) error. *)
Theorem Post_eq_Put (s : gmap string string) (k v : string) :
  Post s k v = Put s k v ∧ Post s k v = (<[k := v]> s, None).
Proof. done. Qed.

(** C10: frame property. For distinct keys [k] and [k'], [Post(k, v)],
    [Put(k, v)] and [Delete(k)] leave the entry of [k'] as it was, and
    [Get(k)] leaves the whole store as it was. *)
Theorem storage_frame (s : gmap string string) (k k' v : string) :
  k ≠ k' →
  (Post s k v).1 !! k' = s !! k' ∧
  (Put s k v).1 !! k' = s !! k' ∧
  (Delete s k).1 !! k' = s !! k' ∧
  (Get s k).1 = s.
Proof.
  intros Hne. cbn. rewrite !lookup_insert_ne, lookup_delete_ne by done.
  repeat split. apply Get_store.
Qed.

Lemma storage_frame_witness :
  "a" ≠ "b" ∧
  (Post ({["b" := "2"]} : gmap string string) "a" "1").1 !! "b" = Some "2".
Proof.
  split; [discriminate|].
  rewrite (proj1 (storage_frame {["b" := "2"]} "a" "b" "1" ltac:(discriminate))).
  reflexivity.
Defined.

(** C3: [Get(k)] fails with the error "key not found" on the store reached
    from [s0] by any history [ops] in which [k] was never written (and is
    absent from [s0]) or in which the last call that wrote or deleted [k] is
    a [Delete]; in particular right after [Delete(k)]. *)
Theorem Get_never_written_or_deleted
    (s0 : gmap string string) (ops : list op) (k : string) :
  (s0 !! k = None ∧ never_written k ops = true) ∨ last_deleted k ops →
  Get (run ops s0) k = (run ops s0, ("", Some "key not found")).
Proof.
  intros [[Hk Hnw]|Hdel]; apply Get_absent.
  - by apply run_never_written.
  - by apply run_last_deleted.
Qed.

Lemma Get_never_written_or_deleted_witness :
  Get (run [OpPost "a" "1"; OpDelete "a"; OpGet "a"] NewInMemoryStorage) "a"
  = (∅, ("", Some "key not found")).
Proof.
  rewrite (Get_never_written_or_deleted NewInMemoryStorage
             [OpPost "a" "1"; OpDelete "a"; OpGet "a"] "a").
  - vm_compute. reflexivity.
  - right. exists [OpPost "a" "1"], [OpGet "a"]. split; reflexivity.
Defined.

(** ** The dispatcher *)

Section dispatcher.

Context {S : Type} `{Storage S}.

Implicit Types (req : RPCRequest.t) (res : RPCResponse.t) (s : S).

(** Every response that [dispatch] returns keeps the identifier and the
    version of the response it was given, and has exactly one of [Result]
    and [Error] set when it was given neither. *)
Lemma dispatch_envelope req res s s' res' :
  RPCResponse.Result res = JNull →
  RPCResponse.Error res = None →
  dispatch req res s = (s', Done res') →
  RPCResponse.ID res' = RPCResponse.ID res ∧
  RPCResponse.JSONRPC res' = RPCResponse.JSONRPC res ∧
  exactly_one res'.
Proof.
  intros Hr He Hd. unfold exactly_one. unfold_handler.
  repeat case_decide;
    repeat (case_match; simplify_eq/=);
    rewrite ?Hr, ?He; naive_solver.
Qed.

(** A request with an unknown method never reaches the storage. *)
Lemma dispatch_unknown req res s :
  RPCRequest.Method req ≠ "get" → RPCRequest.Method req ≠ "post" →
  RPCRequest.Method req ≠ "put" → RPCRequest.Method req ≠ "delete" →
  dispatch req res s = (s, Done (with_Error res (-32601) "Method not found")).
Proof. intros. unfold dispatch. repeat case_decide; done. Qed.

End dispatcher.

(** C5: when the body decodes to [req] and the handler does not panic, it
    writes an encoded response that carries the identifier of [req] and has
    exactly one of [Result] and [Error] set. This holds for every
    implementation of [Storage]. *)
Theorem HandleRequest_envelope {S : Type} `{Storage S}
    (req : RPCRequest.t) (s : S) :
  (HandleRequest (Some req) s).2 ≠ Panicked →
  ∃ res, (HandleRequest (Some req) s).2 = Done (Encoded res) ∧
         RPCResponse.ID res = RPCRequest.ID req ∧
         exactly_one res.
Proof.
  intros Hnp. unfold HandleRequest, bind in *.
  destruct (dispatch req _ s) as [s' [res'|]] eqn:Hd; [|done].
  apply dispatch_envelope in Hd as (Hid & _ & Hone); [|done..].
  exists res'. by unfold ret.
Qed.

Lemma HandleRequest_envelope_witness :
  ∃ res, (HandleRequest (rpc "get" (params_key "a") 9)
            ({["a" := ""]} : gmap string string)).2 = Done (Encoded res) ∧
         RPCResponse.ID res = 9%Z ∧ exactly_one res.
Proof.
  apply (HandleRequest_envelope (RPCRequest.Build "get" (params_key "a") 9 "2.0")
           ({["a" := ""]} : gmap string string)).
  vm_compute. discriminate.
Defined.

(** C6: a decoded request whose method is none of get, post, put, delete
    is answered with error code -32601 and message "Method not found", no
    result, the identifier of the request, and the store as it was. This
    holds for every implementation of [Storage]. *)
Theorem HandleRequest_unknown_method {S : Type} `{Storage S}
    (req : RPCRequest.t) (s : S) :
  RPCRequest.Method req ∉ ["get"; "post"; "put"; "delete"] →
  HandleRequest (Some req) s
  = (s, Done (Encoded (RPCResponse.Build "2.0" JNull
                (Some (RPCError.Build (-32601) "Method not found" JNull))
                (RPCRequest.ID req)))).
Proof.
  intros Hm. unfold HandleRequest, bind.
  rewrite dispatch_unknown; [done|..]; intros Heq; apply Hm; rewrite Heq;
    set_solver.
Qed.

Lemma HandleRequest_unknown_method_witness :
  HandleRequest (rpc "createUser" (params_key_value "id" "Ann") 3)
    ({["a" := "1"]} : gmap string string)
  = ({["a" := "1"]},
     Done (Encoded (RPCResponse.Build "2.0" JNull
             (Some (RPCError.Build (-32601) "Method not found" JNull)) 3))).
Proof.
  apply (HandleRequest_unknown_method
           (RPCRequest.Build "createUser" (params_key_value "id" "Ann") 3 "2.0")).
  cbn. rewrite !elem_of_cons, elem_of_nil.
  intros [?|[?|[?|[?|[]]]]]; discriminate.
Defined.

(** C7: a decoded get request whose params object has no string under
    "key" (absent, or of another type), and a decoded post request whose
    params object has nothing under "value", make the handler panic: no
    response is written, and the store is as it was. This holds for every
    implementation of [Storage]. *)
Theorem HandleRequest_panics {S : Type} `{Storage S}
    (req : RPCRequest.t) (m : gmap string value) (s : S) :
  RPCRequest.Params req = JObject m →
  (RPCRequest.Method req = "get" ∧ ∀ k, m !! "key" ≠ Some (JString k)) ∨
  (RPCRequest.Method req = "post" ∧ m !! "value" = None) →
  HandleRequest (Some req) s = (s, Panicked).
Proof.
  intros Hp [[Hm Hk]|[Hm Hv]]; unfold_handler; rewrite Hm, Hp; cbn.
  - destruct (m !! "key") as [[|b|lit|k|xs|m']|] eqn:Hl; cbn; try done.
    by destruct (Hk k).
  - rewrite Hv. cbn. by destruct (default JNull (m !! "key")).
Qed.

Lemma HandleRequest_panics_witness :
  HandleRequest (rpc "get" (JObject ∅) 1) ({["a" := "1"]} : gmap string string)
    = ({["a" := "1"]}, Panicked) ∧
  HandleRequest (rpc "get" (JObject {["key" := JNumber 5%float]}) 1)
    ({["a" := "1"]} : gmap string string)
    = ({["a" := "1"]}, Panicked) ∧
  HandleRequest (rpc "post" (params_key "a") 1) ({["a" := "1"]} : gmap string string)
    = ({["a" := "1"]}, Panicked).
Proof.
  split; [|split].
  - apply (HandleRequest_panics (RPCRequest.Build "get" (JObject ∅) 1 "2.0") ∅);
      [reflexivity|]. left. split; [reflexivity|]. intros k. vm_compute. discriminate.
  - apply (HandleRequest_panics
             (RPCRequest.Build "get" (JObject {["key" := JNumber 5%float]}) 1 "2.0")
             {["key" := JNumber 5%float]}); [reflexivity|].
    left. split; [reflexivity|]. intros k. vm_compute. discriminate.
  - apply (HandleRequest_panics (RPCRequest.Build "post" (params_key "a") 1 "2.0")
             {["key" := JString "a"]}); [reflexivity|].
    right. split; vm_compute; reflexivity.
Defined.

(** C9: [Post] and [Put] return no error on every store, key and value.
    Hence a decoded post or put request on which the handler does not panic
    is answered with result "success" and no error, and the store it leaves
    is the old one with the request's key bound to the request's value. *)
Theorem Post_Put_always_succeed
    (s : gmap string string) (req : RPCRequest.t) :
  RPCRequest.Method req = "post" ∨ RPCRequest.Method req = "put" →
  (HandleRequest (Some req) s).2 ≠ Panicked →
  (∀ s' k v, (Post s' k v).2 = None ∧ (Put s' k v).2 = None) ∧
  ∃ k v, HandleRequest (Some req) s
         = (<[k := v]> s,
            Done (Encoded (RPCResponse.Build "2.0" (JString "success") None
                    (RPCRequest.ID req)))).
Proof.
  intros Hm Hnp. split; [done|].
  destruct Hm as [Hm|Hm]; unfold_handler; rewrite Hm in *; cbn in *;
    destruct (RPCRequest.Params req) as [|b|lit|str|xs|m]; cbn in *; try done;
    destruct (default JNull (m !! "key")) as [|b|lit|k|xs|m']; cbn in *; try done;
    destruct (default JNull (m !! "value")) as [|b|lit|v|xs|m']; cbn in *; try done;
    by exists k, v.
Qed.

Lemma Post_Put_always_succeed_witness :
  ∃ k v, HandleRequest (rpc "put" (params_key_value "a" "2") 4)
           ({["a" := "1"]} : gmap string string)
         = (<[k := v]> {["a" := "1"]},
            Done (Encoded (RPCResponse.Build "2.0" (JString "success") None 4))).
Proof.
  apply (Post_Put_always_succeed {["a" := "1"]}
           (RPCRequest.Build "put" (params_key_value "a" "2") 4 "2.0")).
  - right. reflexivity.
  - vm_compute. discriminate.
Defined.

(** C1, as stated, fails: on the empty store [Delete("a")] returns no
    error, and the handler answers a delete request for "a" with result
    "success" and no error. *)
Lemma Delete_absent_is_not_an_error :
  ¬ (∀ (s : gmap string string) (k : string),
       s !! k = None → (Delete s k).2 ≠ None) ∧
  ¬ (∀ (s : gmap string string) (k : string) (id : Z),
       s !! k = None →
       ∃ s' res, HandleRequest (rpc "delete" (params_key k) id) s
                 = (s', Done (Encoded res)) ∧
                 RPCResponse.Error res ≠ None ∧
                 RPCResponse.Result res ≠ JString "success").
Proof.
  split.
  - intros Hc. by apply (Hc ∅ "a").
  - intros Hc. destruct (Hc ∅ "a" 1%Z) as (s' & res & Hh & He & _); [done|].
    vm_compute in Hh. by simplify_eq.
Qed.

(** C1, amended: [Delete(k)] of a key absent from the store returns no
    error and leaves the store as it was, and the handler answers a decoded
    delete request for such a key with result "success" and no error. *)
Theorem Delete_absent_succeeds
    (s : gmap string string) (req : RPCRequest.t)
    (m : gmap string value) (k : string) :
  s !! k = None →
  RPCRequest.Method req = "delete" →
  RPCRequest.Params req = JObject m →
  m !! "key" = Some (JString k) →
  Delete s k = (s, None) ∧
  HandleRequest (Some req) s
  = (s, Done (Encoded (RPCResponse.Build "2.0" (JString "success") None
                (RPCRequest.ID req)))).
Proof.
  intros Hk Hm Hp Hl.
  assert (Delete s k = (s, None)) as Hd.
  { cbn. unfold InMemoryStorage.Delete. by rewrite delete_id. }
  split; [done|].
  unfold_handler. rewrite Hm, Hp, Hl; cbn.
  repeat case_decide; try done. by rewrite delete_id.
Qed.

Lemma Delete_absent_succeeds_witness :
  Delete ({["b" := "2"]} : gmap string string) "a" = ({["b" := "2"]}, None) ∧
  HandleRequest (rpc "delete" (params_key "a") 8)
    ({["b" := "2"]} : gmap string string)
  = ({["b" := "2"]},
     Done (Encoded (RPCResponse.Build "2.0" (JString "success") None 8))).
Proof.
  apply (Delete_absent_succeeds {["b" := "2"]}
           (RPCRequest.Build "delete" (params_key "a") 8 "2.0")
           {["key" := JString "a"]} "a"); vm_compute; reflexivity.
Defined.

(** * Further properties of the server *)

(** ** Panics *)

(** X1: the handler panics on a decoded request exactly when the method is
    get or delete and the params are not an object with a string under
    "key", or the method is post or put and the params are not an object
    with strings under "key" and "value". In particular an unknown method
    never panics, whatever its params. This holds for every implementation
    of [Storage]. *)
Theorem HandleRequest_panics_iff {S : Type} `{Storage S}
    (req : RPCRequest.t) (s : S) :
  (HandleRequest (Some req) s).2 = Panicked ↔
  ((RPCRequest.Method req = "get" ∨ RPCRequest.Method req = "delete") ∧
   ¬ has_key req) ∨
  ((RPCRequest.Method req = "post" ∨ RPCRequest.Method req = "put") ∧
   ¬ has_key_value req).
Proof.
  unfold has_key, has_key_value. unfold_handler.
  destruct req as [method params id version]; cbn.
  repeat case_decide; subst; cbn.
  5:{ split; [done|]. intros [[[] _]|[[] _]]; done. }
  all: destruct params as [|b|f|str|xs|m]; cbn;
    try (split; [intros _|done];
         solve [ left; split; [auto|]; intros (?&?&?&?); done
               | right; split; [auto|]; intros (?&?&?&?&?&?); done ]).
  all: destruct (m !! "key") as [[|b|f|k|xs|m']|] eqn:Hk; cbn;
    try (split; [intros _|done];
         solve [ left; split; [auto|]; intros (?&?&?&?); simplify_eq
               | right; split; [auto|]; intros (?&?&?&?&?&?); simplify_eq ]).
  - destruct (Get s k) as [s' [v [msg|]]]; cbn;
      (split; [done|]); (intros [[_ Hn]|[[] _]]; [|done..]);
      destruct Hn; eauto.
  - destruct (m !! "value") as [[|b|f|v|xs|m']|] eqn:Hv; cbn;
      try (split; [intros _|done]; right; split; [auto|];
           intros (?&?&?&?&?&?); simplify_eq).
    destruct (Post s k v) as [s' [msg|]]; cbn;
      (split; [done|]); (intros [[[] _]|[_ Hn]]; [done..|]);
      destruct Hn; eauto 6.
  - destruct (m !! "value") as [[|b|f|v|xs|m']|] eqn:Hv; cbn;
      try (split; [intros _|done]; right; split; [auto|];
           intros (?&?&?&?&?&?); simplify_eq).
    destruct (Put s k v) as [s' [msg|]]; cbn;
      (split; [done|]); (intros [[[] _]|[_ Hn]]; [done..|]);
      destruct Hn; eauto 6.
  - destruct (Delete s k) as [s' [msg|]]; cbn;
      (split; [done|]); (intros [[_ Hn]|[[] _]]; [|done..]);
      destruct Hn; eauto.
Qed.

(** X2: a run of the handler that panics leaves the store as it was: the
    panic comes before any call of the storage. This holds for every
    implementation of [Storage]. *)
Theorem HandleRequest_panic_keeps_store {S : Type} `{Storage S}
    (body : option RPCRequest.t) (s : S) :
  (HandleRequest body s).2 = Panicked → (HandleRequest body s).1 = s.
Proof.
  destruct body as [req|]; [|done]. unfold_handler.
  repeat case_decide; repeat (case_match; simplify_eq/=); done.
Qed.

Lemma HandleRequest_panic_keeps_store_witness :
  (HandleRequest (rpc "put" (JArray [JString "a"; JString "1"]) 2)
     ({["a" := "0"]} : gmap string string)).1 = {["a" := "0"]}.
Proof.
  apply (HandleRequest_panic_keeps_store
           (rpc "put" (JArray [JString "a"; JString "1"]) 2)).
  vm_compute. reflexivity.
Defined.

(** ** The shape of a response *)

(** X3: every response the handler encodes has version "2.0", a result
    that is nil or a string, and, when it has an error, an error without
    data whose code is -32601 with message "Method not found" for a method
    other than get, post, put, delete, and 1 for one of these four. This
    holds for every implementation of [Storage]. *)
Theorem HandleRequest_response_shape {S : Type} `{Storage S}
    (req : RPCRequest.t) (s s' : S) (res : RPCResponse.t) :
  HandleRequest (Some req) s = (s', Done (Encoded res)) →
  RPCResponse.JSONRPC res = "2.0" ∧
  (RPCResponse.Result res = JNull ∨ ∃ str, RPCResponse.Result res = JString str) ∧
  ∀ e, RPCResponse.Error res = Some e →
       RPCError.Data e = JNull ∧
       ((RPCError.Code e = (-32601)%Z ∧ RPCError.Message e = "Method not found" ∧
         RPCRequest.Method req ∉ ["get"; "post"; "put"; "delete"]) ∨
        (RPCError.Code e = 1%Z ∧
         RPCRequest.Method req ∈ ["get"; "post"; "put"; "delete"])).
Proof.
  intros Hh. unfold_handler.
  repeat case_decide; repeat (case_match; simplify_eq/=); simplify_eq/=;
    (split; [done|]); (split; [eauto|]); intros e He; simplify_eq/=;
    (split; [done|]);
    try (right; split; [done|]; rewrite !elem_of_cons; auto).
  left. repeat split. rewrite !elem_of_cons, elem_of_nil. tauto.
Qed.

Lemma HandleRequest_response_shape_witness :
  HandleRequest (Some (RPCRequest.Build "get" (params_key "a") 4 "1.0"))
    (∅ : gmap string string)
  = (∅, Done (Encoded (RPCResponse.Build "2.0" JNull
                         (Some (RPCError.Build 1 "key not found" JNull)) 4))) ∧
  RPCResponse.JSONRPC
    (RPCResponse.Build "2.0" JNull (Some (RPCError.Build 1 "key not found" JNull)) 4)
  = "2.0".
Proof.
  assert (HandleRequest (Some (RPCRequest.Build "get" (params_key "a") 4 "1.0"))
            (∅ : gmap string string)
          = (∅, Done (Encoded (RPCResponse.Build "2.0" JNull
                         (Some (RPCError.Build 1 "key not found" JNull)) 4))))
    as Hrun by (vm_compute; reflexivity).
  split; [exact Hrun|].
  exact (proj1 (HandleRequest_response_shape _ _ _ _ Hrun)).
Defined.

(** ** The handler on the in-memory store *)

Section in_memory.

Implicit Types (s : gmap string string) (req : RPCRequest.t).

Lemma lookup_params_key (k : string) :
  ({["key" := JString k]} : gmap string value) !! "key" = Some (JString k).
Proof. apply lookup_singleton_eq. Qed.

(** One well-formed request is one call on the storage plus its envelope. *)
Lemma HandleRequest_request_of_op (id : Z) (o : op) s :
  HandleRequest (Some (request_of_op id o)) s
  = (step s o, Done (Encoded (response_of_op id s o))).
Proof.
  destruct o as [k|k v|k v|k]; unfold_handler;
    repeat case_decide; try done; unfold params_key; cbn.
  rewrite lookup_params_key; cbn. unfold InMemoryStorage.Get.
  by destruct (s !! k).
Qed.

End in_memory.

(** X4: on the in-memory store, a run of the handler changes nothing under
    a key other than the string under "key" in the params of the request;
    this covers bodies that do not decode and runs that panic. *)
Theorem HandleRequest_frame
    (body : option RPCRequest.t) (s : gmap string string) (k' : string) :
  request_key body ≠ Some k' →
  (HandleRequest body s).1 !! k' = s !! k'.
Proof.
  intros Hk. destruct body as [req|]; [|done]. unfold request_key in Hk.
  unfold_handler.
  repeat case_decide; repeat (case_match; simplify_eq/=); try done;
    try (apply lookup_insert_ne; congruence);
    try (apply lookup_delete_ne; congruence);
    match goal with
    | Hg : InMemoryStorage.Get s ?k = (?g, _) |- _ =>
      change (InMemoryStorage.Get s k) with (Get s k) in Hg;
      apply (f_equal fst) in Hg; rewrite Get_store in Hg; by subst
    end.
Qed.

Lemma HandleRequest_frame_witness :
  (HandleRequest (rpc "delete" (params_key "a") 1)
     ({["a" := "1"; "b" := "2"]} : gmap string string)).1 !! "b" = Some "2".
Proof.
  rewrite (HandleRequest_frame (rpc "delete" (params_key "a") 1)
             {["a" := "1"; "b" := "2"]} "b").
  - vm_compute. reflexivity.
  - vm_compute. discriminate.
Defined.

(** X5: on the in-memory store, only post, put and delete requests change
    the store: a decoded request with any other method, get included,
    leaves the whole store as it was. *)
Theorem HandleRequest_read_only (req : RPCRequest.t) (s : gmap string string) :
  RPCRequest.Method req ∉ ["post"; "put"; "delete"] →
  (HandleRequest (Some req) s).1 = s.
Proof.
  intros Hm. rewrite !elem_of_cons, elem_of_nil in Hm. unfold_handler.
  repeat case_decide; repeat (case_match; simplify_eq/=); try tauto; try done;
    match goal with
    | Hg : InMemoryStorage.Get s ?k = (?g, _) |- _ =>
      change (InMemoryStorage.Get s k) with (Get s k) in Hg;
      apply (f_equal fst) in Hg; rewrite Get_store in Hg; by subst
    end.
Qed.

Lemma HandleRequest_read_only_witness :
  (HandleRequest (rpc "get" (params_key "a") 1)
     ({["a" := "1"]} : gmap string string)).1 = {["a" := "1"]}.
Proof.
  apply (HandleRequest_read_only (RPCRequest.Build "get" (params_key "a") 1 "2.0")).
  cbn. rewrite !elem_of_cons, elem_of_nil.
  intros [?|[?|[?|[]]]]; discriminate.
Defined.

(** X6: the server refines the storage. Serving the requests for a
    sequence of calls, whatever their identifiers, leaves the store that
    the calls leave when made on the storage directly, no run panics, and
    the responses are: the stored value for a get of a present key, error
    code 1 with message "key not found" for a get of an absent key, and
    "success" for every post, put and delete. *)
Theorem serve_refines_run (calls : list (Z * op)) (s : gmap string string) :
  serve ((λ c, Some (request_of_op c.1 c.2)) <$> calls) s
  = (run (snd <$> calls) s, (λ res, Done (Encoded res)) <$> responses calls s).
Proof.
  revert s. induction calls as [|[id o] calls IH]; intros s; [done|].
  cbn [fmap list_fmap serve responses fst snd].
  rewrite HandleRequest_request_of_op, IH. done.
Qed.

(** X7: the handler reads nothing of a request but its method, its
    identifier and what its params hold under "key" and "value": two decoded
    requests that agree on these are answered alike, whatever else the
    params hold and whatever version the requests announce. This holds for
    every implementation of [Storage]. *)
Theorem HandleRequest_reads_key_value {S : Type} `{Storage S}
    (req req' : RPCRequest.t) (m m' : gmap string value) (s : S) :
  RPCRequest.Method req = RPCRequest.Method req' →
  RPCRequest.ID req = RPCRequest.ID req' →
  RPCRequest.Params req = JObject m →
  RPCRequest.Params req' = JObject m' →
  m !! "key" = m' !! "key" →
  m !! "value" = m' !! "value" →
  HandleRequest (Some req) s = HandleRequest (Some req') s.
Proof.
  intros Hm Hi Hp Hp' Hk Hv. unfold_handler.
  by rewrite Hm, Hi, Hp, Hp', Hk, Hv.
Qed.

Lemma HandleRequest_reads_key_value_witness :
  HandleRequest
    (Some (RPCRequest.Build "post"
             (JObject {["key" := JString "a"; "value" := JString "1";
                        "ttl" := JNumber 60%float]}) 5 "1.0"))
    (∅ : gmap string string)
  = HandleRequest (rpc "post" (params_key_value "a" "1") 5) ∅.
Proof.
  apply (HandleRequest_reads_key_value
           (RPCRequest.Build "post"
              (JObject {["key" := JString "a"; "value" := JString "1";
                         "ttl" := JNumber 60%float]}) 5 "1.0")
           (RPCRequest.Build "post" (params_key_value "a" "1") 5 "2.0")
           {["key" := JString "a"; "value" := JString "1"; "ttl" := JNumber 60%float]}
           {["key" := JString "a"; "value" := JString "1"]});
    vm_compute; reflexivity.
Defined.

(** ** Histories on the storage *)

Section histories.

Implicit Types (s : gmap string string) (k v : string) (o : op) (ops : list op).

Lemma step_lookup_unmutated s k o :
  mutates k o = false → step s o !! k = s !! k.
Proof.
  destruct o as [key|key val|key val|key]; cbn; intros Hm.
  - by rewrite Get_store.
  - apply bool_decide_eq_false in Hm. by rewrite lookup_insert_ne.
  - apply bool_decide_eq_false in Hm. by rewrite lookup_insert_ne.
  - apply bool_decide_eq_false in Hm. by rewrite lookup_delete_ne.
Qed.

Lemma run_lookup_unmutated ops : ∀ s k,
  never_mutated k ops = true → run ops s !! k = s !! k.
Proof.
  induction ops as [|o ops IH]; intros s k Hops; [done|].
  cbn in Hops. apply andb_true_iff in Hops as [Ho Hops].
  apply negb_true_iff in Ho.
  etrans; [by apply (IH (step s o))|]. by apply step_lookup_unmutated.
Qed.

Lemma mutates_key_of k o : key_of o ≠ k → mutates k o = false.
Proof.
  destruct o; cbn; intros Hne; try done; by apply bool_decide_eq_false.
Qed.

Lemma step_comm s o o' :
  key_of o ≠ key_of o' → step (step s o) o' = step (step s o') o.
Proof.
  destruct o as [k|k v|k v|k], o' as [k'|k' v'|k' v'|k']; cbn; intros Hne;
    rewrite ?Get_store; cbn; unfold InMemoryStorage.Get;
    repeat case_match; cbn; try done.
  all: first [ by apply insert_insert_ne
             | by rewrite delete_insert_ne
             | by rewrite <- delete_insert_ne
             | by apply delete_delete ].
Qed.

Lemma never_mutated_other_keys k ops :
  k ∉ key_of <$> ops → never_mutated k ops = true.
Proof.
  induction ops as [|o ops IH]; intros Hk; [done|].
  rewrite fmap_cons, not_elem_of_cons in Hk. destruct Hk as [Hne Hk].
  cbn. rewrite mutates_key_of by done. by apply IH.
Qed.

Lemma run_lookup_last_write s pre post k v o :
  o = OpPost k v ∨ o = OpPut k v →
  never_mutated k post = true →
  run (pre ++ o :: post) s !! k = Some v.
Proof.
  intros Ho Hpost. rewrite run_app. cbn.
  change (run post (step (run pre s) o) !! k = Some v).
  rewrite run_lookup_unmutated by done.
  destruct Ho as [-> | ->]; cbn; apply lookup_insert_eq.
Qed.

End histories.

(** X8: last write wins over histories. If the last call of a history
    that is a [Post], [Put] or [Delete] on [k] is a [Post] or [Put] of [v],
    then [Get(k)] on the store the history leaves returns [v] with no
    error, whatever the store the history started on. *)
Theorem Get_last_write
    (s0 : gmap string string) (pre post : list op) (o : op) (k v : string) :
  o = OpPost k v ∨ o = OpPut k v →
  never_mutated k post = true →
  (Get (run (pre ++ o :: post) s0) k).2 = (v, None).
Proof.
  intros Ho Hpost. erewrite Get_present; [done|].
  by apply run_lookup_last_write.
Qed.

Lemma Get_last_write_witness :
  (Get (run ([OpPost "a" "1"; OpDelete "a"] ++ OpPut "a" "2" ::
             [OpPost "b" "3"; OpGet "a"; OpDelete "b"]) {["a" := "0"]}) "a").2
  = ("2", None).
Proof.
  apply (Get_last_write {["a" := "0"]} [OpPost "a" "1"; OpDelete "a"]
           [OpPost "b" "3"; OpGet "a"; OpDelete "b"] (OpPut "a" "2") "a" "2").
  - right. reflexivity.
  - vm_compute. reflexivity.
Defined.

(** X9: calls on distinct keys commute. When no two calls of a history
    are about the same key, every reordering of the history leaves the same
    store. *)
Theorem run_distinct_keys_any_order (ops ops' : list op) (s : gmap string string) :
  NoDup (key_of <$> ops) →
  ops ≡ₚ ops' →
  run ops s = run ops' s.
Proof.
  intros Hnd Hp. revert s Hnd.
  induction Hp as [|o ops ops' Hp IH|o o' ops|ops ops' ops'' Hp IH Hp' IH'];
    intros s Hnd.
  - done.
  - apply NoDup_cons in Hnd as [_ Hnd]. cbn. by apply IH.
  - apply NoDup_cons in Hnd as [Hne _]. rewrite not_elem_of_cons in Hne.
    destruct Hne as [Hne _]. cbn. f_equal. apply step_comm. congruence.
  - rewrite IH by done. apply IH'. by rewrite <- Hp.
Qed.

Lemma run_distinct_keys_any_order_witness :
  run [OpPost "a" "1"; OpDelete "b"; OpPut "c" "3"] ({["b" := "2"]} : gmap string string)
  = run [OpPut "c" "3"; OpPost "a" "1"; OpDelete "b"] {["b" := "2"]}.
Proof.
  apply (run_distinct_keys_any_order
           [OpPost "a" "1"; OpDelete "b"; OpPut "c" "3"]
           [OpPut "c" "3"; OpPost "a" "1"; OpDelete "b"]).
  - apply (bool_decide_unpack _). vm_compute. exact I.
  - etrans; [|apply Permutation_swap]. apply Permutation_skip, Permutation_swap.
Defined.

(** X10: writes to distinct keys are never lost. When no two calls of a
    history are about the same key, every value posted or put by a call of
    the history is stored under its key in the store the history leaves. *)
Theorem run_distinct_keys_keeps_writes
    (ops : list op) (s : gmap string string) (k v : string) :
  NoDup (key_of <$> ops) →
  OpPost k v ∈ ops ∨ OpPut k v ∈ ops →
  run ops s !! k = Some v.
Proof.
  intros Hnd Hin.
  assert (∃ o, (o = OpPost k v ∨ o = OpPut k v) ∧ o ∈ ops) as (o & Ho & Hel).
  { destruct Hin as [Hin|Hin]; eauto. }
  apply list_elem_of_split in Hel as (pre & post & ->).
  rewrite fmap_app, fmap_cons in Hnd.
  apply NoDup_app in Hnd as (_ & _ & Hnd). apply NoDup_cons in Hnd as [Hk _].
  assert (key_of o = k) as Hko by (by destruct Ho as [-> | ->]).
  rewrite Hko in Hk.
  apply run_lookup_last_write; [done|]. by apply never_mutated_other_keys.
Qed.

Lemma run_distinct_keys_keeps_writes_witness :
  run [OpPost "a" "1"; OpPut "b" "2"; OpPost "c" "3"] NewInMemoryStorage !! "b"
  = Some "2".
Proof.
  apply (run_distinct_keys_keeps_writes
           [OpPost "a" "1"; OpPut "b" "2"; OpPost "c" "3"] NewInMemoryStorage "b" "2").
  - apply (bool_decide_unpack _). vm_compute. exact I.
  - right. apply list_elem_of_further, list_elem_of_here.
Defined.

(** X11: [Post(k, v)] of a key absent from the store followed by
    [Delete(k)] gives back the store as it was, with no error. *)
Theorem Post_then_Delete_restores (s : gmap string string) (k v : string) :
  s !! k = None →
  Delete (Post s k v).1 k = (s, None).
Proof.
  intros Hk. cbn. unfold InMemoryStorage.Delete. cbn.
  by rewrite delete_insert_id.
Qed.

Lemma Post_then_Delete_restores_witness :
  Delete (Post ({["b" := "2"]} : gmap string string) "a" "1").1 "a"
  = ({["b" := "2"]}, None).
Proof.
  apply (Post_then_Delete_restores {["b" := "2"]} "a" "1").
  vm_compute. reflexivity.
Defined.

(** * Properties of the REST front end *)

Section front_end.

Implicit Types (users : gmap string Client.User) (r : Client.Request)
  (ext : Client.externals) (id : string) (user : Client.User).

Lemma strip_prefix_app (prefix s : string) :
  Client.strip_prefix prefix (prefix ++ s) = Some s.
Proof.
  induction prefix as [|c prefix IH]; [done|].
  change (String c prefix ++ s) with (String c (prefix ++ s)).
  cbn -[Ascii.eqb]. by rewrite Ascii.eqb_refl.
Qed.

Lemma TrimPrefix_app (prefix s : string) :
  Client.TrimPrefix (prefix ++ s) prefix = s.
Proof. unfold Client.TrimPrefix. by rewrite strip_prefix_app. Qed.

Lemma keyed_by_ID_insert users id user :
  Client.keyed_by_ID users →
  Client.keyed_by_ID (<[id := Client.with_ID user id]> users).
Proof.
  intros Hk id' user' Hl. apply lookup_insert_Some in Hl as [[<- <-]|[_ Hl]].
  - done.
  - by apply Hk.
Qed.

Lemma keyed_by_ID_delete users id :
  Client.keyed_by_ID users → Client.keyed_by_ID (delete id users).
Proof.
  intros Hk id' user' Hl. apply lookup_delete_Some in Hl as [_ Hl]. by apply Hk.
Qed.

Lemma handle_keyed_by_ID (c : Client.routed) users :
  Client.keyed_by_ID users → Client.keyed_by_ID (Client.handle c users).1.
Proof.
  intros Hk. destruct c as [ext r|r]; cbn.
  - unfold_client.
    repeat case_decide; repeat (case_match; simplify_eq/=);
      first [ done | by apply keyed_by_ID_insert ].
  - unfold Client.userHandler.
    generalize (Client.TrimPrefix (Client.Path r) "/users/"). intros id.
    unfold_client.
    repeat case_decide; repeat (case_match; simplify_eq/=);
      first [ done | by apply keyed_by_ID_insert | by apply keyed_by_ID_delete ].
Qed.

End front_end.

(** X12: every user is stored under its own [ID], whatever the requests.
    If that holds of [users], it holds of the map any sequence of requests
    to the two handlers leaves, whatever identifiers the bodies carry,
    whatever the JSON-RPC call returns, and also when runs panic. *)
Theorem served_keyed_by_ID
    (cs : list Client.routed) (users : gmap string Client.User) :
  Client.keyed_by_ID users → Client.keyed_by_ID (Client.served cs users).
Proof.
  revert users. induction cs as [|c cs IH]; intros users Hk; [done|].
  cbn. apply IH. by apply handle_keyed_by_ID.
Qed.

Lemma served_keyed_by_ID_witness :
  Client.keyed_by_ID
    (Client.served
       [Client.ToUsers
          (Client.BuildExternals "u-1" (λ _ _, inr (Client.Decoded JNull)) (λ _, inl "eof"))
          (Client.BuildRequest "POST" "/users" (inr (Client.BuildUser "mine" "Ann" 30)));
        Client.ToUser
          (Client.BuildRequest "PUT" "/users/u-2" (inr (Client.BuildUser "other" "Bob" 41)))]
       ∅).
Proof.
  apply (served_keyed_by_ID _ ∅). intros id user Hl.
  by rewrite lookup_empty in Hl.
Defined.

(** X13: a PUT to /users/id with a body that decodes stores the user under
    [id] with its [ID] set to [id], whether or not [id] was there before and
    whatever [ID] the body carries; a GET of /users/id right after it
    returns that user. *)
Theorem userHandler_PUT_then_GET
    (r r' : Client.Request) (users : gmap string Client.User)
    (id : string) (user : Client.User) :
  Client.Method r = "PUT" →
  Client.Path r = "/users/" ++ id →
  Client.Body r = inr user →
  Client.Method r' = "GET" →
  Client.Path r' = "/users/" ++ id →
  Client.userHandler r users
  = (<[id := Client.with_ID user id]> users,
     Done (Client.EncodedUser (Client.with_ID user id))) ∧
  Client.userHandler r' (Client.userHandler r users).1
  = (<[id := Client.with_ID user id]> users,
     Done (Client.EncodedUser (Client.with_ID user id))).
Proof.
  intros Hm Hp Hb Hm' Hp'.
  assert (Client.userHandler r users
          = (<[id := Client.with_ID user id]> users,
             Done (Client.EncodedUser (Client.with_ID user id)))) as Hput.
  { unfold Client.userHandler. rewrite Hm, Hp, TrimPrefix_app.
    repeat case_decide; try done. unfold_client. by rewrite Hb. }
  split; [done|]. rewrite Hput. cbn.
  unfold Client.userHandler. rewrite Hm', Hp', TrimPrefix_app.
  repeat case_decide; try done. unfold Client.getUser.
  by rewrite lookup_insert_eq.
Qed.

Lemma userHandler_PUT_then_GET_witness :
  Client.userHandler (Client.BuildRequest "GET" "/users/u-7" (inl "EOF"))
    (Client.userHandler
       (Client.BuildRequest "PUT" "/users/u-7" (inr (Client.BuildUser "x" "Ann" 30)))
       ∅).1
  = ({["u-7" := Client.BuildUser "u-7" "Ann" 30]},
     Done (Client.EncodedUser (Client.BuildUser "u-7" "Ann" 30))).
Proof.
  apply (userHandler_PUT_then_GET
           (Client.BuildRequest "PUT" "/users/u-7" (inr (Client.BuildUser "x" "Ann" 30)))
           (Client.BuildRequest "GET" "/users/u-7" (inl "EOF"))
           ∅ "u-7" (Client.BuildUser "x" "Ann" 30)); reflexivity.
Defined.

(** X14: after a DELETE of /users/id, whether it found the user or not, a
    GET and a further DELETE of /users/id are both answered 404 "User not
    found" and leave [users] as the first DELETE left it; and the first
    DELETE leaves nothing under [id]. *)
Theorem userHandler_after_DELETE
    (r r' : Client.Request) (users : gmap string Client.User) (id : string) :
  Client.Method r = "DELETE" →
  Client.Path r = "/users/" ++ id →
  Client.Path r' = "/users/" ++ id →
  Client.Method r' = "GET" ∨ Client.Method r' = "DELETE" →
  (Client.userHandler r users).1 = delete id users ∧
  Client.userHandler r' (Client.userHandler r users).1
  = (delete id users, Done (Client.HTTPError "User not found" 404)).
Proof.
  intros Hm Hp Hp' Hm'.
  assert ((Client.userHandler r users).1 = delete id users) as Hdel.
  { unfold Client.userHandler. rewrite Hm, Hp, TrimPrefix_app.
    repeat case_decide; try done. unfold Client.deleteUser.
    destruct (users !! id) eqn:Hl; [done|]. cbn. by rewrite delete_id. }
  split; [done|]. rewrite Hdel.
  unfold Client.userHandler. rewrite Hp', TrimPrefix_app.
  destruct Hm' as [-> | ->]; repeat case_decide; try done.
  - unfold Client.getUser. by rewrite lookup_delete_eq.
  - unfold Client.deleteUser. by rewrite lookup_delete_eq.
Qed.

Lemma userHandler_after_DELETE_witness :
  Client.userHandler (Client.BuildRequest "DELETE" "/users/u-7" (inl "EOF"))
    (Client.userHandler (Client.BuildRequest "DELETE" "/users/u-7" (inl "EOF"))
       {["u-7" := Client.BuildUser "u-7" "Ann" 30]}).1
  = (delete "u-7" {["u-7" := Client.BuildUser "u-7" "Ann" 30]},
     Done (Client.HTTPError "User not found" 404)).
Proof.
  apply (userHandler_after_DELETE
           (Client.BuildRequest "DELETE" "/users/u-7" (inl "EOF"))
           (Client.BuildRequest "DELETE" "/users/u-7" (inl "EOF"))
           {["u-7" := Client.BuildUser "u-7" "Ann" 30]} "u-7");
    first [reflexivity | right; reflexivity].
Defined.

(** X15: [users] changes only on a POST to the collection or a PUT or
    DELETE to one user: a request with any other method leaves it as it
    was, and so does a POST or PUT whose body does not decode. *)
Theorem handle_leaves_users
    (c : Client.routed) (users : gmap string Client.User) :
  Client.may_change c = false →
  (Client.handle c users).1 = users.
Proof.
  destruct c as [ext r|r]; cbn; intros Hc.
  - unfold Client.usersHandler, Client.createUser, Client.getAllUsers.
    repeat case_decide; try done.
    rewrite bool_decide_eq_true_2 in Hc by done. cbn in Hc.
    apply bool_decide_eq_false in Hc. by destruct (Client.Body r).
  - unfold Client.userHandler, Client.updateUser, Client.getUser, Client.deleteUser.
    generalize (Client.TrimPrefix (Client.Path r) "/users/"). intros id.
    apply orb_false_iff in Hc as [Hput Hdel].
    apply bool_decide_eq_false in Hdel.
    repeat case_decide; try done; try (by destruct (users !! id)).
    rewrite bool_decide_eq_true_2 in Hput by done. cbn in Hput.
    apply bool_decide_eq_false in Hput. by destruct (Client.Body r).
Qed.

Lemma handle_leaves_users_witness :
  (Client.handle
     (Client.ToUser (Client.BuildRequest "PUT" "/users/u-7" (inl "unexpected EOF")))
     {["u-7" := Client.BuildUser "u-7" "Ann" 30]}).1
  = {["u-7" := Client.BuildUser "u-7" "Ann" 30]}.
Proof.
  apply (handle_leaves_users
           (Client.ToUser (Client.BuildRequest "PUT" "/users/u-7" (inl "unexpected EOF")))).
  vm_compute. reflexivity.
Defined.

(** X16: a POST to the collection whose body decodes stores the user
    under the fresh identifier, with its [ID] set to it, before the JSON-RPC
    call is made, and nothing takes it back: the user is in [users]
    afterwards whatever the call returns, also when the answer is an error
    500 or the run panics. *)
Theorem createUser_keeps_user
    (ext : Client.externals) (r : Client.Request)
    (users : gmap string Client.User) (user : Client.User) :
  Client.Method r = "POST" →
  Client.Body r = inr user →
  (Client.usersHandler ext r users).1
  = <[Client.uuid_New ext := Client.with_ID user (Client.uuid_New ext)]> users.
Proof.
  intros Hm Hb. unfold_client. rewrite Hm, Hb.
  repeat case_decide; try done. cbn.
  repeat (case_match; simplify_eq/=); done.
Qed.

Lemma createUser_keeps_user_witness :
  (Client.usersHandler
     (Client.BuildExternals "u-1" (λ _ _, inl "connection refused") (λ _, inl "EOF"))
     (Client.BuildRequest "POST" "/users" (inr (Client.BuildUser "" "Ann" 30)))
     ∅).1
  = {["u-1" := Client.BuildUser "u-1" "Ann" 30]}.
Proof.
  apply (createUser_keeps_user
           (Client.BuildExternals "u-1" (λ _ _, inl "connection refused") (λ _, inl "EOF"))
           (Client.BuildRequest "POST" "/users" (inr (Client.BuildUser "" "Ann" 30)))
           ∅ (Client.BuildUser "" "Ann" 30)); reflexivity.
Defined.

(** X17: when the [Result] that the JSON-RPC call returns is a value as
    [encoding/json] decodes it, nil included, and not a byte slice, a POST to
    the collection panics at the type assertion: nothing is written, and the
    user is already stored. *)
Theorem createUser_panics
    (ext : Client.externals) (r : Client.Request)
    (users : gmap string Client.User) (user : Client.User) (v : value) :
  Client.Method r = "POST" →
  Client.Body r = inr user →
  Client.Call ext "createUser" (Client.with_ID user (Client.uuid_New ext))
    = inr (Client.Decoded v) →
  Client.usersHandler ext r users
  = (<[Client.uuid_New ext := Client.with_ID user (Client.uuid_New ext)]> users,
     Panicked).
Proof.
  intros Hm Hb Hc. unfold_client. rewrite Hm, Hb.
  repeat case_decide; try done. cbn. by rewrite Hc.
Qed.

Lemma createUser_panics_witness :
  Client.usersHandler
    (Client.BuildExternals "u-1" (λ _ _, inr (Client.Decoded JNull)) (λ _, inl "EOF"))
    (Client.BuildRequest "POST" "/users" (inr (Client.BuildUser "" "Ann" 30)))
    ∅
  = ({["u-1" := Client.BuildUser "u-1" "Ann" 30]}, Panicked).
Proof.
  apply (createUser_panics
           (Client.BuildExternals "u-1" (λ _ _, inr (Client.Decoded JNull)) (λ _, inl "EOF"))
           (Client.BuildRequest "POST" "/users" (inr (Client.BuildUser "" "Ann" 30)))
           ∅ (Client.BuildUser "" "Ann" 30) JNull); reflexivity.
Defined.

(** X19: when the JSON-RPC call returns an error, a POST to the collection
    answers with the text of that error and status 500, and the user stays
    stored under the fresh identifier. *)
Theorem createUser_call_error
    (ext : Client.externals) (r : Client.Request)
    (users : gmap string Client.User) (user : Client.User) (err : string) :
  Client.Method r = "POST" →
  Client.Body r = inr user →
  Client.Call ext "createUser" (Client.with_ID user (Client.uuid_New ext))
    = inl err →
  Client.usersHandler ext r users
  = (<[Client.uuid_New ext := Client.with_ID user (Client.uuid_New ext)]> users,
     Done (Client.HTTPError err 500)).
Proof.
  intros Hm Hb Hc. unfold_client. rewrite Hm, Hb.
  repeat case_decide; try done. cbn. by rewrite Hc.
Qed.

Lemma createUser_call_error_witness :
  Client.usersHandler
    (Client.BuildExternals "u-1" (λ _ _, inl "connection refused") (λ _, inl "EOF"))
    (Client.BuildRequest "POST" "/users" (inr (Client.BuildUser "" "Ann" 30)))
    ∅
  = ({["u-1" := Client.BuildUser "u-1" "Ann" 30]},
     Done (Client.HTTPError "connection refused" 500)).
Proof.
  apply (createUser_call_error
           (Client.BuildExternals "u-1" (λ _ _, inl "connection refused") (λ _, inl "EOF"))
           (Client.BuildRequest "POST" "/users" (inr (Client.BuildUser "" "Ann" 30)))
           ∅ (Client.BuildUser "" "Ann" 30) "connection refused"); reflexivity.
Defined.

(** X18: a request to one user changes nothing under any other
    identifier than the one its path names. *)
Theorem userHandler_frame
    (r : Client.Request) (users : gmap string Client.User) (id' : string) :
  id' ≠ Client.TrimPrefix (Client.Path r) "/users/" →
  (Client.userHandler r users).1 !! id' = users !! id'.
Proof.
  intros Hne. unfold Client.userHandler.
  generalize dependent (Client.TrimPrefix (Client.Path r) "/users/").
  intros id Hne. unfold_client.
  repeat case_decide; repeat (case_match; simplify_eq/=); try done.
  - by rewrite lookup_insert_ne.
  - by rewrite lookup_delete_ne.
Qed.

Lemma userHandler_frame_witness :
  (Client.userHandler (Client.BuildRequest "DELETE" "/users/u-7" (inl "EOF"))
     {["u-7" := Client.BuildUser "u-7" "Ann" 30;
       "u-8" := Client.BuildUser "u-8" "Bob" 41]}).1 !! "u-8"
  = Some (Client.BuildUser "u-8" "Bob" 41).
Proof.
  rewrite (userHandler_frame (Client.BuildRequest "DELETE" "/users/u-7" (inl "EOF")) _ "u-8").
  - vm_compute. reflexivity.
  - vm_compute. discriminate.
Defined.
